(** * chaincfg: network parameters, the network registry and its lookups

    A shallow embedding of package [chaincfg] of godash
    ([chaincfg/params.go], [chaincfg/genesis.go]) and the properties of
    its registry.

    Conventions.
    - Go integers are [Z]; no arithmetic is performed on them by the code
      below, so no wrap-around arises.  A [byte] is [Byte.byte], a
      [[4]byte] array a 4-tuple of bytes, a [[]byte] slice a [list byte],
      a Go [string] a [string] (a sequence of 8-bit characters).
    - A Go [map[K]struct{}] is a finite set [gset K]; [map[K]V] is
      [gmap K V].
    - The package-level maps form the record [Registry]; functions that
      write them run in the monad [Go], which threads the registry and
      may panic.  Functions that only read take the registry as argument.
    - [Params] values are passed by pointer in Go but are never written
      by this package; they are embedded by value. *)

From Stdlib Require Import ZArith Strings.String Strings.Ascii Strings.Byte List Lia.
From stdpp Require Import gmap strings list.

#[local] Open Scope Z_scope.
#[local] Open Scope string_scope.

(** ** Bytes and fixed arrays *)

#[global] Instance byte_eq_dec : EqDecision byte := Byte.byte_eq_dec.

#[global] Instance byte_countable : Countable byte :=
  inj_countable Byte.to_N Byte.of_N Byte.of_to_N.

(** [[4]byte]. *)
Definition Array4 : Type := byte * byte * byte * byte.

(** [a[:]] for [a : [4]byte]. *)
Definition slice4 (a : Array4) : list byte :=
  let '(b0, b1, b2, b3) := a in [b0; b1; b2; b3].

(** [var key [4]byte; copy(key[:], id)]: the first [min 4 (len id)] bytes
    of [id] over a zeroed array. *)
Definition copy4 (id : list byte) : Array4 :=
  (nth 0 id x00, nth 1 id x00, nth 2 id x00, nth 3 id x00).

(** ** Package chainhash and package wire

    Neither package is among the sources; only the types and fields that
    [genesis.go] and [params.go] mention are declared.  The element types
    of [MsgTx.TxIn] and [MsgTx.TxOut] are named [TxIn_t] and [TxOut_t],
    and [MsgTx.Version] is [TxVersion], to keep them apart from the
    fields of the same name. *)

Module chainhash.
(** [chainhash.Hash] is [[HashSize]byte]. *)
Definition HashSize : nat := 32.
Definition Hash : Type := list byte.
(** [chainhash.Hash{}], the zero value. *)
Definition zero : Hash := replicate HashSize x00.
End chainhash.

Module wire.
(** [wire.DASHNet], the network magic. *)
Definition DASHNet : Type := Z.

Record OutPoint := { Hash : chainhash.Hash; Index : Z }.
Record TxIn_t :=
  { PreviousOutPoint : OutPoint; SignatureScript : list byte; Sequence : Z }.
Record TxOut_t := { Value : Z; PkScript : list byte }.
Record MsgTx :=
  { TxVersion : Z; TxIn : list TxIn_t; TxOut : list TxOut_t; LockTime : Z }.
(** [Timestamp] is a [time.Time]; it is kept as the seconds given to
    [time.Unix]. *)
Record BlockHeader :=
  { Version : Z;
    PrevBlock : chainhash.Hash;
    MerkleRoot : chainhash.Hash;
    Timestamp : Z;
    Bits : Z;
    Nonce : Z }.
Record MsgBlock := { Header : BlockHeader; Transactions : list MsgTx }.
End wire.

(** ** genesis.go *)

(** [genesisCoinbaseTx] is the coinbase transaction for the genesis blocks
    of the three networks. *)
Definition genesisCoinbaseTx : wire.MsgTx :=
  {| wire.TxVersion := 1;
     wire.TxIn :=
       [ {| wire.PreviousOutPoint :=
              {| wire.Hash := chainhash.zero; wire.Index := 0xffffffff |};
            wire.SignatureScript :=
              [ x04; xff; xff; x00; x1d; x01; x04; x45;
                x54; x68; x65; x20; x54; x69; x6d; x65;
                x73; x20; x30; x33; x2f; x4a; x61; x6e;
                x2f; x32; x30; x30; x39; x20; x43; x68;
                x61; x6e; x63; x65; x6c; x6c; x6f; x72;
                x20; x6f; x6e; x20; x62; x72; x69; x6e;
                x6b; x20; x6f; x66; x20; x73; x65; x63;
                x6f; x6e; x64; x20; x62; x61; x69; x6c;
                x6f; x75; x74; x20; x66; x6f; x72; x20;
                x62; x61; x6e; x6b; x73 ];
            wire.Sequence := 0xffffffff |} ];
     wire.TxOut :=
       [ {| wire.Value := 0x12a05f200;
            wire.PkScript :=
              [ x41; x04; x67; x8a; xfd; xb0; xfe; x55;
                x48; x27; x19; x67; xf1; xa6; x71; x30;
                xb7; x10; x5c; xd6; xa8; x28; xe0; x39;
                x09; xa6; x79; x62; xe0; xea; x1f; x61;
                xde; xb6; x49; xf6; xbc; x3f; x4c; xef;
                x38; xc4; xf3; x55; x04; xe5; x1e; xc1;
                x12; xde; x5c; x38; x4d; xf7; xba; x0b;
                x8d; x57; x8a; x4c; x70; x2b; x6b; xf1;
                x1d; x5f; xac ] |} ];
     wire.LockTime := 0 |}.

(** [genesisHash] is the hash of the first block of the main network. *)
Definition genesisHash : chainhash.Hash :=
  [ xb6; x7a; x40; xf3; xcd; x58; x04; x43;
    x7a; x10; x8f; x10; x55; x33; x73; x9c;
    x37; xe6; x22; x9b; xc1; xad; xca; xb3;
    x85; x14; x0b; x59; xfd; x0f; x00; x00 ].

(** [genesisMerkleRoot] is the hash of the first transaction in the
    genesis block of the main network. *)
Definition genesisMerkleRoot : chainhash.Hash :=
  [ xc7; x62; xa6; x56; x7f; x3c; xc0; x92;
    xf0; x68; x4b; xb6; x2b; x7e; x00; xa8;
    x48; x90; xb9; x90; xf0; x7c; xc7; x1a;
    x6b; xb5; x8d; x64; xb9; x8e; x02; xe0 ].

Definition genesisBlock : wire.MsgBlock :=
  {| wire.Header :=
       {| wire.Version := 1;
          wire.PrevBlock := chainhash.zero;
          wire.MerkleRoot := genesisMerkleRoot;
          wire.Timestamp := 0x52DB2D02;
          wire.Bits := 0x1e0ffff0;
          wire.Nonce := 0x121b062 |};
     wire.Transactions := [genesisCoinbaseTx] |}.

Definition regTestGenesisHash : chainhash.Hash :=
  [ x2e; x3d; xf2; x3e; xec; x5c; xd6; xa8;
    x6e; xdd; x50; x95; x39; x02; x8e; x2c;
    x3a; x3d; xc0; x53; x15; xeb; x28; xf2;
    xba; xa4; x32; x18; xca; x08; x00; x00 ].

Definition regTestGenesisMerkleRoot : chainhash.Hash := genesisMerkleRoot.

Definition regTestGenesisBlock : wire.MsgBlock :=
  {| wire.Header :=
       {| wire.Version := 1;
          wire.PrevBlock := chainhash.zero;
          wire.MerkleRoot := regTestGenesisMerkleRoot;
          wire.Timestamp := 1417713337;
          wire.Bits := 0x207fffff;
          wire.Nonce := 1096447 |};
     wire.Transactions := [genesisCoinbaseTx] |}.

Definition testNet3GenesisHash : chainhash.Hash :=
  [ x2c; xbc; xf8; x3b; x62; x91; x3d; x56;
    xf6; x05; xc0; xe5; x81; xa4; x88; x72;
    x83; x94; x28; xc9; x2e; x5e; xb7; x6c;
    xd7; xad; x94; xbc; xaf; x0b; x00; x00 ].

Definition testNet3GenesisMerkleRoot : chainhash.Hash := genesisMerkleRoot.

Definition testNet3GenesisBlock : wire.MsgBlock :=
  {| wire.Header :=
       {| wire.Version := 1;
          wire.PrevBlock := chainhash.zero;
          wire.MerkleRoot := testNet3GenesisMerkleRoot;
          wire.Timestamp := 1390666206;
          wire.Bits := 0x1e0ffff0;
          wire.Nonce := 0xE627C9C3 |};
     wire.Transactions := [genesisCoinbaseTx] |}.

(** ** params.go: types *)

Definition mainPowLimit : Z := Z.shiftl 1 224 - 1.
Definition regressionPowLimit : Z := Z.shiftl 1 255 - 1.
Definition testNet3PowLimit : Z := Z.shiftl 1 224 - 1.
Definition simNetPowLimit : Z := Z.shiftl 1 255 - 1.

(** [Checkpoint].  [Hash] is kept as the big-endian hex literal handed to
    [newHashFromStr]; [chainhash.NewHashFromStr], which parses it, is not
    among the sources and nothing below depends on the parsed bytes. *)
Record Checkpoint := { Height : Z; Hash : string }.

(** [newHashFromStr] hands its literal to [chainhash.NewHashFromStr] and
    panics on an error; here the literal is carried as it is. *)
Definition newHashFromStr (hexStr : string) : string := hexStr.

Record DNSSeed := { Host : string; HasFiltering : bool }.

Record ConsensusDeployment :=
  { BitNumber : Z; StartTime : Z; ExpireTime : Z }.

(** The deployment offsets ([iota]). *)
Definition DeploymentTestDummy : nat := 0.
Definition DeploymentCSV : nat := 1.
Definition DeploymentSegwit : nat := 2.
Definition DefinedDeployments : nat := 3.

(** A keyed array literal [[DefinedDeployments]ConsensusDeployment{i: d, ...}]:
    the zero array with the listed slots assigned. *)
Definition deployments (slots : list (nat * ConsensusDeployment))
  : list ConsensusDeployment :=
  foldl (fun arr '(i, d) => <[i := d]> arr)
        (replicate DefinedDeployments
                   {| BitNumber := 0; StartTime := 0; ExpireTime := 0 |})
        slots.

(** [time.Duration] constants, in nanoseconds. *)
Module time.
Definition Second : Z := 1000000000.
Definition Minute : Z := 60 * Second.
Definition Hour : Z := 60 * Minute.
End time.

Module math.
Definition MaxInt64 : Z := Z.shiftl 1 63 - 1.
End math.

Record Params :=
  { Name : string;
    Net : wire.DASHNet;
    DefaultPort : string;
    DNSSeeds : list DNSSeed;
    GenesisBlock : wire.MsgBlock;
    GenesisHash : chainhash.Hash;
    PowLimit : Z;
    PowLimitBits : Z;
    BIP0034Height : Z;
    BIP0065Height : Z;
    BIP0066Height : Z;
    CoinbaseMaturity : Z;
    SubsidyReductionInterval : Z;
    TargetTimespan : Z;
    TargetTimePerBlock : Z;
    RetargetAdjustmentFactor : Z;
    ReduceMinDifficulty : bool;
    MinDiffReductionTime : Z;
    GenerateSupported : bool;
    Checkpoints : list Checkpoint;
    RuleChangeActivationThreshold : Z;
    MinerConfirmationWindow : Z;
    Deployments : list ConsensusDeployment;
    RelayNonStdTxs : bool;
    Bech32HRPSegwit : string;
    PubKeyHashAddrID : byte;
    ScriptHashAddrID : byte;
    PrivateKeyID : byte;
    WitnessPubKeyHashAddrID : byte;
    WitnessScriptHashAddrID : byte;
    HDPrivateKeyID : Array4;
    HDPublicKeyID : Array4;
    HDCoinType : Z }.


(** ** params.go: errors and the package-level maps *)

Inductive error := ErrDuplicateNet | ErrUnknownHDKeyID.

(** [err.Error()]. *)
Definition Error (e : error) : string :=
  match e with
  | ErrDuplicateNet => "duplicate DASH network"
  | ErrUnknownHDKeyID => "unknown hd private extended key bytes"
  end.

(** The five package-level maps. *)
Record Registry :=
  { registeredNets : gset wire.DASHNet;
    pubKeyHashAddrIDs : gset byte;
    scriptHashAddrIDs : gset byte;
    bech32SegwitPrefixes : gset string;
    hdPrivToPubKeyIDs : gmap Array4 (list byte) }.

(** The maps as the [var ( ... make(map...) )] block creates them. *)
Definition newRegistry : Registry :=
  {| registeredNets := ∅;
     pubKeyHashAddrIDs := ∅;
     scriptHashAddrIDs := ∅;
     bech32SegwitPrefixes := ∅;
     hdPrivToPubKeyIDs := ∅ |}.

(** The five assignments of [Register], one map write each. *)
Definition putRegisteredNet (net : wire.DASHNet) (r : Registry) : Registry :=
  {| registeredNets := {[ net ]} ∪ registeredNets r;
     pubKeyHashAddrIDs := pubKeyHashAddrIDs r;
     scriptHashAddrIDs := scriptHashAddrIDs r;
     bech32SegwitPrefixes := bech32SegwitPrefixes r;
     hdPrivToPubKeyIDs := hdPrivToPubKeyIDs r |}.

Definition putPubKeyHashAddrID (id : byte) (r : Registry) : Registry :=
  {| registeredNets := registeredNets r;
     pubKeyHashAddrIDs := {[ id ]} ∪ pubKeyHashAddrIDs r;
     scriptHashAddrIDs := scriptHashAddrIDs r;
     bech32SegwitPrefixes := bech32SegwitPrefixes r;
     hdPrivToPubKeyIDs := hdPrivToPubKeyIDs r |}.

Definition putScriptHashAddrID (id : byte) (r : Registry) : Registry :=
  {| registeredNets := registeredNets r;
     pubKeyHashAddrIDs := pubKeyHashAddrIDs r;
     scriptHashAddrIDs := {[ id ]} ∪ scriptHashAddrIDs r;
     bech32SegwitPrefixes := bech32SegwitPrefixes r;
     hdPrivToPubKeyIDs := hdPrivToPubKeyIDs r |}.

Definition putHDPrivToPubKeyID (priv : Array4) (pub : list byte) (r : Registry)
  : Registry :=
  {| registeredNets := registeredNets r;
     pubKeyHashAddrIDs := pubKeyHashAddrIDs r;
     scriptHashAddrIDs := scriptHashAddrIDs r;
     bech32SegwitPrefixes := bech32SegwitPrefixes r;
     hdPrivToPubKeyIDs := <[ priv := pub ]> (hdPrivToPubKeyIDs r) |}.

Definition putBech32SegwitPrefix (prefix : string) (r : Registry) : Registry :=
  {| registeredNets := registeredNets r;
     pubKeyHashAddrIDs := pubKeyHashAddrIDs r;
     scriptHashAddrIDs := scriptHashAddrIDs r;
     bech32SegwitPrefixes := {[ prefix ]} ∪ bech32SegwitPrefixes r;
     hdPrivToPubKeyIDs := hdPrivToPubKeyIDs r |}.

(** ** The monad of functions that write the registry *)

Inductive outcome (A : Type) :=
| Done (a : A) (r : Registry)
| Panic (msg : string).
Arguments Done {A} a r.
Arguments Panic {A} msg.

Definition Go (A : Type) : Type := Registry -> outcome A.

#[global] Instance Go_ret : MRet Go := fun A a r => Done a r.

#[global] Instance Go_bind : MBind Go := fun A B k m r =>
  match m r with
  | Done a r' => k a r'
  | Panic msg => Panic msg
  end.

Definition panic {A} (msg : string) : Go A := fun _ => Panic msg.
Definition gets {A} (f : Registry -> A) : Go A := fun r => Done (f r) r.
Definition modify (f : Registry -> Registry) : Go unit := fun r => Done tt (f r).

(** ** Register and mustRegister *)

Definition Register (params : Params) : Go (option error) :=
  nets ← gets registeredNets;
  if bool_decide (Net params ∈ nets) then mret (Some ErrDuplicateNet)
  else
    modify (putRegisteredNet (Net params));;
    modify (putPubKeyHashAddrID (PubKeyHashAddrID params));;
    modify (putScriptHashAddrID (ScriptHashAddrID params));;
    modify (putHDPrivToPubKeyID (HDPrivateKeyID params)
                                (slice4 (HDPublicKeyID params)));;
    modify (putBech32SegwitPrefix (Bech32HRPSegwit params +:+ "1"));;
    mret None.

Definition mustRegister (params : Params) : Go unit :=
  err ← Register params;
  match err with
  | Some e => panic ("failed to register network: " +:+ Error e)
  | None => mret tt
  end.

(** ** The lookups *)

Definition IsPubKeyHashAddrID (id : byte) (r : Registry) : bool :=
  bool_decide (id ∈ pubKeyHashAddrIDs r).

Definition IsScriptHashAddrID (id : byte) (r : Registry) : bool :=
  bool_decide (id ∈ scriptHashAddrIDs r).

(** [HDPrivateKeyToPublicKeyID] returns [(nil, ErrUnknownHDKeyID)] or
    [(pubBytes, nil)]. *)
Definition HDPrivateKeyToPublicKeyID (id : list byte) (r : Registry)
  : list byte * option error :=
  if bool_decide (length id ≠ 4%nat) then ([], Some ErrUnknownHDKeyID)
  else
    let key := copy4 id in
    match hdPrivToPubKeyIDs r !! key with
    | None => ([], Some ErrUnknownHDKeyID)
    | Some pubBytes => (pubBytes, None)
    end.

(** A custom network as an integrator assembles it: a copy of [base]
    with its identity and address magics replaced. *)
Definition customNet (base : Params) (name : string) (net : wire.DASHNet)
    (hrp : string) (pubKeyHash scriptHash : byte) (hdPriv hdPub : Array4)
  : Params :=
  {| Name := name;
     Net := net;
     DefaultPort := DefaultPort base;
     DNSSeeds := DNSSeeds base;
     GenesisBlock := GenesisBlock base;
     GenesisHash := GenesisHash base;
     PowLimit := PowLimit base;
     PowLimitBits := PowLimitBits base;
     BIP0034Height := BIP0034Height base;
     BIP0065Height := BIP0065Height base;
     BIP0066Height := BIP0066Height base;
     CoinbaseMaturity := CoinbaseMaturity base;
     SubsidyReductionInterval := SubsidyReductionInterval base;
     TargetTimespan := TargetTimespan base;
     TargetTimePerBlock := TargetTimePerBlock base;
     RetargetAdjustmentFactor := RetargetAdjustmentFactor base;
     ReduceMinDifficulty := ReduceMinDifficulty base;
     MinDiffReductionTime := MinDiffReductionTime base;
     GenerateSupported := GenerateSupported base;
     Checkpoints := Checkpoints base;
     RuleChangeActivationThreshold := RuleChangeActivationThreshold base;
     MinerConfirmationWindow := MinerConfirmationWindow base;
     Deployments := Deployments base;
     RelayNonStdTxs := RelayNonStdTxs base;
     Bech32HRPSegwit := hrp;
     PubKeyHashAddrID := pubKeyHash;
     ScriptHashAddrID := scriptHash;
     PrivateKeyID := PrivateKeyID base;
     WitnessPubKeyHashAddrID := WitnessPubKeyHashAddrID base;
     WitnessScriptHashAddrID := WitnessScriptHashAddrID base;
     HDPrivateKeyID := hdPriv;
     HDPublicKeyID := hdPub;
     HDCoinType := HDCoinType base |}.

(** Custom networks used as concrete inputs below.  [exampleAlpha] and
    [exampleBeta] have distinct magics and share their HD private key id;
    [exampleUpper] has an upper-case human-readable part; the
    human-readable part of [exampleNested] ends in the separator. *)
Definition exampleAlpha (base : Params) : Params :=
  customNet base "alpha" 0xa1a1a1a1 "al" x1e x1f
            (x01, x02, x03, x04) (x0a, x0a, x0a, x0a).

Definition exampleBeta (base : Params) : Params :=
  customNet base "beta" 0xb2b2b2b2 "be" x2e x2f
            (x01, x02, x03, x04) (x0b, x0b, x0b, x0b).



(** *** strings.ToLower

    [strings.ToLower] belongs to the Go standard library.  On a string
    whose bytes are all below [utf8.RuneSelf] it maps ['A'..'Z'] to
    ['a'..'z'] byte by byte; any other string is mapped rune by rune
    through [unicode.ToLower], which is kept as the parameter
    [unicodeToLower] of the section below. *)

Definition RuneSelf : N := 128.

Definition isUpper (c : ascii) : bool :=
  ((65 <=? N_of_ascii c) && (N_of_ascii c <=? 90))%N.

Definition lowerByte (c : ascii) : ascii :=
  if isUpper c then ascii_of_N (N_of_ascii c + 32) else c.

Fixpoint isASCII (s : string) : bool :=
  match s with
  | EmptyString => true
  | String c s' => (N_of_ascii c <? RuneSelf)%N && isASCII s'
  end.

Fixpoint hasUpper (s : string) : bool :=
  match s with
  | EmptyString => false
  | String c s' => isUpper c || hasUpper s'
  end.

Fixpoint mapBytes (f : ascii -> ascii) (s : string) : string :=
  match s with
  | EmptyString => EmptyString
  | String c s' => String (f c) (mapBytes f s')
  end.

Section Chaincfg.

(** [strings.Map(unicode.ToLower, s)] of the Go standard library, reached
    by [strings.ToLower] only for strings with a byte at or above
    [utf8.RuneSelf]. *)
Variable unicodeToLower : string -> string.

Definition ToLower (s : string) : string :=
  if isASCII s then
    if negb (hasUpper s) then s else mapBytes lowerByte s
  else unicodeToLower s.

Definition IsBech32SegwitPrefix (prefix : string) (r : Registry) : bool :=
  let prefix := ToLower prefix in
  bool_decide (prefix ∈ bech32SegwitPrefixes r).

(** ** params.go: the built-in networks *)

(** Modelled from the spec: the constants [wire.MainNet], [wire.TestNet]
    and [wire.TestNet3] of package [wire], which is not among the
    sources.  The spec gives the network magic as the 4-byte unique key
    of a parameter set and no values, so the three magics are parameters;
    statements that need them distinct say so. *)
Variables MainNet TestNet TestNet3 : wire.DASHNet.

Definition MainNetParams : Params :=
  {| Name := "mainnet";
     Net := MainNet;
     DefaultPort := "9999";
     DNSSeeds :=
       [ {| Host := "dnsseed.dash.org"; HasFiltering := true |};
         {| Host := "dnsseed.dashdot.io"; HasFiltering := true |};
         {| Host := "dnsseed.masternode.io"; HasFiltering := false |};
         {| Host := "dnsseed.dashpay.io"; HasFiltering := true |} ];
     GenesisBlock := genesisBlock;
     GenesisHash := genesisHash;
     PowLimit := mainPowLimit;
     PowLimitBits := 0x1d00ffff;
     BIP0034Height := 1;
     BIP0065Height := 388381;
     BIP0066Height := 363725;
     CoinbaseMaturity := 100;
     SubsidyReductionInterval := 210240;
     TargetTimespan := 24 * 60 * 60;
     TargetTimePerBlock := time.Second * 150;
     RetargetAdjustmentFactor := 4;
     ReduceMinDifficulty := false;
     MinDiffReductionTime := 0;
     GenerateSupported := false;
     Checkpoints :=
       [ {| Height := 4991; Hash := newHashFromStr "000000003b01809551952460744d5dbb8fcbd6cbae3c220267bf7fa43f837367" |};
         {| Height := 9918; Hash := newHashFromStr "00000000213e229f332c0ffbe34defdaa9e74de87f2d8d1f01af8d121c3c170b" |};
         {| Height := 16912; Hash := newHashFromStr "00000000075c0d10371d55a60634da70f197548dbbfa4123e12abfcbc5738af9" |};
         {| Height := 23912; Hash := newHashFromStr "0000000000335eac6703f3b1732ec8b2f89c3ba3a7889e5767b090556bb9a276" |};
         {| Height := 35457; Hash := newHashFromStr "0000000000b0ae211be59b048df14820475ad0dd53b9ff83b010f71a77342d9f" |};
         {| Height := 45479; Hash := newHashFromStr "000000000063d411655d590590e16960f15ceea4257122ac430c6fbe39fbf02d" |};
         {| Height := 55895; Hash := newHashFromStr "0000000000ae4c53a43639a4ca027282f69da9c67ba951768a20415b6439a2d7" |};
         {| Height := 68899; Hash := newHashFromStr "0000000000194ab4d3d9eeb1f2f792f21bb39ff767cb547fe977640f969d77b7" |};
         {| Height := 74619; Hash := newHashFromStr "000000000011d28f38f05d01650a502cc3f4d0e793fbc26e2a2ca71f07dc3842" |};
         {| Height := 75095; Hash := newHashFromStr "0000000000193d12f6ad352a9996ee58ef8bdc4946818a5fec5ce99c11b87f0d" |};
         {| Height := 88805; Hash := newHashFromStr "00000000001392f1652e9bf45cd8bc79dc60fe935277cd11538565b4a94fa85f" |};
         {| Height := 107996; Hash := newHashFromStr "00000000000a23840ac16115407488267aa3da2b9bc843e301185b7d17e4dc40" |};
         {| Height := 137993; Hash := newHashFromStr "00000000000cf69ce152b1bffdeddc59188d7a80879210d6e5c9503011929c3c" |};
         {| Height := 167996; Hash := newHashFromStr "000000000009486020a80f7f2cc065342b0c2fb59af5e090cd813dba68ab0fed" |};
         {| Height := 207992; Hash := newHashFromStr "00000000000d85c22be098f74576ef00b7aa00c05777e966aff68a270f1e01a5" |};
         {| Height := 312645; Hash := newHashFromStr "0000000000059dcb71ad35a9e40526c44e7aae6c99169a9e7017b7d84b1c2daf" |};
         {| Height := 407452; Hash := newHashFromStr "000000000003c6a87e73623b9d70af7cd908ae22fee466063e4ffc20be1d2dbc" |};
         {| Height := 523412; Hash := newHashFromStr "000000000000e54f036576a10597e0e42cc22a5159ce572f999c33975e121d4d" |};
         {| Height := 523930; Hash := newHashFromStr "0000000000000bccdb11c2b1cfb0ecab452abf267d89b7f46eaf2d54ce6e652c" |};
         {| Height := 750000; Hash := newHashFromStr "00000000000000b4181bbbdddbae464ce11fede5d0292fb63fdede1e7c8ab21c" |} ];
     RuleChangeActivationThreshold := 1916;
     MinerConfirmationWindow := 2016;
     Deployments :=
       deployments
         [ (DeploymentTestDummy,
            {| BitNumber := 28; StartTime := 1199145601; ExpireTime := 1230767999 |});
           (DeploymentCSV,
            {| BitNumber := 0; StartTime := 1486252800; ExpireTime := 1517788800 |});
           (DeploymentSegwit,
            {| BitNumber := 1; StartTime := 1508025600; ExpireTime := 1539561600 |}) ];
     RelayNonStdTxs := false;
     Bech32HRPSegwit := "bc";
     PubKeyHashAddrID := x4c;
     ScriptHashAddrID := x10;
     PrivateKeyID := xcc;
     WitnessPubKeyHashAddrID := x06;
     WitnessScriptHashAddrID := x0a;
     HDPrivateKeyID := (x04, x88, xad, xe4);
     HDPublicKeyID := (x04, x88, xb2, x1e);
     HDCoinType := 5 |}.

Definition RegressionNetParams : Params :=
  {| Name := "regtest";
     Net := TestNet;
     DefaultPort := "19994";
     DNSSeeds := [];
     GenesisBlock := regTestGenesisBlock;
     GenesisHash := regTestGenesisHash;
     PowLimit := regressionPowLimit;
     PowLimitBits := 0x207fffff;
     CoinbaseMaturity := 100;
     BIP0034Height := 100000000;
     BIP0065Height := 1351;
     BIP0066Height := 1251;
     SubsidyReductionInterval := 150;
     TargetTimespan := time.Hour * 24 * 1;
     TargetTimePerBlock := time.Second * 150;
     RetargetAdjustmentFactor := 4;
     ReduceMinDifficulty := true;
     MinDiffReductionTime := time.Minute * 20;
     GenerateSupported := true;
     Checkpoints := [];
     RuleChangeActivationThreshold := 108;
     MinerConfirmationWindow := 144;
     Deployments :=
       deployments
         [ (DeploymentTestDummy,
            {| BitNumber := 28; StartTime := 0; ExpireTime := math.MaxInt64 |});
           (DeploymentCSV,
            {| BitNumber := 0; StartTime := 0; ExpireTime := math.MaxInt64 |});
           (DeploymentSegwit,
            {| BitNumber := 1; StartTime := 0; ExpireTime := math.MaxInt64 |}) ];
     RelayNonStdTxs := true;
     Bech32HRPSegwit := "tb";
     PubKeyHashAddrID := x8c;
     ScriptHashAddrID := x13;
     PrivateKeyID := xef;
     WitnessPubKeyHashAddrID := x00;
     WitnessScriptHashAddrID := x00;
     HDPrivateKeyID := (x04, x35, x83, x94);
     HDPublicKeyID := (x04, x35, x87, xcf);
     HDCoinType := 1 |}.

Definition TestNet3Params : Params :=
  {| Name := "testnet3";
     Net := TestNet3;
     DefaultPort := "19999";
     DNSSeeds :=
       [ {| Host := "testnet-seed.dashdot.io"; HasFiltering := true |};
         {| Host := "test.dnsseed.masternode.io"; HasFiltering := true |} ];
     GenesisBlock := testNet3GenesisBlock;
     GenesisHash := testNet3GenesisHash;
     PowLimit := testNet3PowLimit;
     PowLimitBits := 0x1d00ffff;
     BIP0034Height := 1;
     BIP0065Height := 581885;
     BIP0066Height := 330776;
     CoinbaseMaturity := 100;
     SubsidyReductionInterval := 210240;
     TargetTimespan := time.Hour * 24 * 1;
     TargetTimePerBlock := time.Second * 150;
     RetargetAdjustmentFactor := 4;
     ReduceMinDifficulty := true;
     MinDiffReductionTime := time.Minute * 20;
     GenerateSupported := false;
     Checkpoints :=
       [ {| Height := 261; Hash := newHashFromStr "00000c26026d0815a7e2ce4fa270775f61403c040647ff2c3091f99e894a4618" |};
         {| Height := 1999; Hash := newHashFromStr "00000052e538d27fa53693efe6fb6892a0c1d26c0235f599171c48a3cce553b1" |};
         {| Height := 2999; Hash := newHashFromStr "0000024bc3f4f4cb30d29827c13d921ad77d2c6072e586c7f60d83c2722cdcc5" |} ];
     RuleChangeActivationThreshold := 1512;
     MinerConfirmationWindow := 2016;
     Deployments :=
       deployments
         [ (DeploymentTestDummy,
            {| BitNumber := 28; StartTime := 1199145601; ExpireTime := 1230767999 |});
           (DeploymentCSV,
            {| BitNumber := 0; StartTime := 1456790400; ExpireTime := 1493596800 |});
           (DeploymentSegwit,
            {| BitNumber := 1; StartTime := 1462060800; ExpireTime := 1493596800 |}) ];
     RelayNonStdTxs := true;
     Bech32HRPSegwit := "tb";
     PubKeyHashAddrID := x8c;
     ScriptHashAddrID := x13;
     WitnessPubKeyHashAddrID := x03;
     WitnessScriptHashAddrID := x28;
     PrivateKeyID := xef;
     HDPrivateKeyID := (x04, x35, x83, x94);
     HDPublicKeyID := (x04, x35, x87, xcf);
     HDCoinType := 1 |}.

(** [init] registers all default networks when the package is
    initialized. *)
Definition init : Go unit :=
  mustRegister MainNetParams;;
  mustRegister TestNet3Params;;
  mustRegister RegressionNetParams.

(** ** Runs of the registry *)

(** A sequence of [Register] calls made one after another from registry
    [r]: the final registry, and the parameter sets whose call returned
    [nil], in call order (the registered networks). *)
Fixpoint RegisterAll (calls : list Params) (r : Registry)
  : Registry * list Params :=
  match calls with
  | [] => (r, [])
  | ps :: rest =>
      match Register ps r with
      | Done None r' =>
          let '(rf, ok) := RegisterAll rest r' in (rf, ps :: ok)
      | Done (Some _) r' => RegisterAll rest r'
      | Panic _ => (r, [])
      end
  end.

(** The network registered last among [ok] under HD private key id
    [key]. *)
Definition lastWithHDPrivateKeyID (key : Array4) (ok : list Params)
  : option Params :=
  last (filter (fun ps => HDPrivateKeyID ps = key) ok).

(** The assignments of [Register] after its duplicate check, in source
    order. *)
Definition RegisterWrites (params : Params) : list (Registry -> Registry) :=
  [ putRegisteredNet (Net params);
    putPubKeyHashAddrID (PubKeyHashAddrID params);
    putScriptHashAddrID (ScriptHashAddrID params);
    putHDPrivToPubKeyID (HDPrivateKeyID params) (slice4 (HDPublicKeyID params));
    putBech32SegwitPrefix (Bech32HRPSegwit params +:+ "1") ].

(** [Register] takes no lock, so a goroutine that reads the maps while a
    call is between two assignments sees the registry with the first [k]
    of them done. *)
Definition afterWrites (k : nat) (params : Params) (r : Registry) : Registry :=
  foldl (fun r w => w r) r (take k (RegisterWrites params)).

(** Strictly increasing heights, pair by pair. *)
Definition strictlyIncreasing (cs : list Checkpoint) : Prop :=
  forall i j a b, (i < j)%nat -> cs !! i = Some a -> cs !! j = Some b ->
    Height a < Height b.

(** The check of adjacent heights that decides [strictlyIncreasing]. *)
Fixpoint heightsIncreasing (cs : list Checkpoint) : bool :=
  match cs with
  | a :: ((b :: _) as rest) => (Height a <? Height b)%Z && heightsIncreasing rest
  | _ => true
  end.

(** [s] and [t] are equal up to the case of ASCII letters. *)
Definition equalUpToASCIICase (s t : string) : Prop :=
  mapBytes lowerByte s = mapBytes lowerByte t.

(** ** Properties of Register *)

Lemma Register_unfold (ps : Params) (r : Registry) :
  Register ps r =
    if bool_decide (Net ps ∈ registeredNets r)
    then Done (Some ErrDuplicateNet) r
    else Done None (afterWrites 5 ps r).
Proof.
  unfold Register, mbind, Go_bind, gets; simpl.
  case_bool_decide; reflexivity.
Qed.

Lemma Register_fresh (ps : Params) (r : Registry) :
  Net ps ∉ registeredNets r -> Register ps r = Done None (afterWrites 5 ps r).
Proof.
  intros Hfresh. rewrite Register_unfold.
  rewrite bool_decide_eq_false_2; done.
Qed.

(** [Register] reads six fields of its argument and nothing else; the
    genesis block and hash, the checkpoints and the deployments of a
    parameter set play no part in registration. *)
Lemma Register_reads_six_fields (ps ps' : Params) (r : Registry) :
  Net ps = Net ps' ->
  PubKeyHashAddrID ps = PubKeyHashAddrID ps' ->
  ScriptHashAddrID ps = ScriptHashAddrID ps' ->
  HDPrivateKeyID ps = HDPrivateKeyID ps' ->
  HDPublicKeyID ps = HDPublicKeyID ps' ->
  Bech32HRPSegwit ps = Bech32HRPSegwit ps' ->
  Register ps r = Register ps' r.
Proof.
  intros Hnet Hpk Hsh Hpriv Hpub Hhrp. rewrite !Register_unfold.
  unfold afterWrites, RegisterWrites.
  by rewrite Hnet, Hpk, Hsh, Hpriv, Hpub, Hhrp.
Qed.

(** C1: when the magic of [ps] is already registered, [Register ps]
    returns [ErrDuplicateNet] and the registry it leaves is the registry
    it was called on: the set of magics and the four indices are
    untouched. *)
Theorem Register_duplicate_unchanged (ps : Params) (r : Registry) :
  Net ps ∈ registeredNets r ->
  Register ps r = Done (Some ErrDuplicateNet) r.
Proof.
  intros Hdup. rewrite Register_unfold.
  rewrite bool_decide_eq_true_2; done.
Qed.

(** *** What a successful call writes *)

Lemma afterWrites_registeredNets ps r :
  registeredNets (afterWrites 5 ps r) = {[ Net ps ]} ∪ registeredNets r.
Proof. reflexivity. Qed.

Lemma afterWrites_pubKeyHashAddrIDs ps r :
  pubKeyHashAddrIDs (afterWrites 5 ps r)
  = {[ PubKeyHashAddrID ps ]} ∪ pubKeyHashAddrIDs r.
Proof. reflexivity. Qed.

Lemma afterWrites_scriptHashAddrIDs ps r :
  scriptHashAddrIDs (afterWrites 5 ps r)
  = {[ ScriptHashAddrID ps ]} ∪ scriptHashAddrIDs r.
Proof. reflexivity. Qed.

Lemma afterWrites_bech32SegwitPrefixes ps r :
  bech32SegwitPrefixes (afterWrites 5 ps r)
  = {[ Bech32HRPSegwit ps +:+ "1" ]} ∪ bech32SegwitPrefixes r.
Proof. reflexivity. Qed.

Lemma afterWrites_hdPrivToPubKeyIDs ps r :
  hdPrivToPubKeyIDs (afterWrites 5 ps r)
  = <[ HDPrivateKeyID ps := slice4 (HDPublicKeyID ps) ]> (hdPrivToPubKeyIDs r).
Proof. reflexivity. Qed.

(** *** Runs, call by call *)

Lemma RegisterAll_cons (ps : Params) (rest : list Params) (r : Registry) :
  RegisterAll (ps :: rest) r =
    if bool_decide (Net ps ∈ registeredNets r)
    then RegisterAll rest r
    else ((RegisterAll rest (afterWrites 5 ps r)).1,
          ps :: (RegisterAll rest (afterWrites 5 ps r)).2).
Proof.
  simpl. rewrite Register_unfold. case_bool_decide; [done|].
  by destruct (RegisterAll rest (afterWrites 5 ps r)).
Qed.

Lemma list_to_set_cons_union `{Countable K} (x : K) (l : list K) (X : gset K) :
  list_to_set l ∪ ({[ x ]} ∪ X) =@{gset K} list_to_set (x :: l) ∪ X.
Proof.
  rewrite list_to_set_cons, (assoc_L (∪)).
  by rewrite (comm_L (∪) (list_to_set l)).
Qed.

Lemma RegisterAll_cons_fresh (ps : Params) (rest : list Params) (r : Registry) :
  Net ps ∉ registeredNets r ->
  RegisterAll (ps :: rest) r
  = ((RegisterAll rest (afterWrites 5 ps r)).1,
     ps :: (RegisterAll rest (afterWrites 5 ps r)).2).
Proof.
  intros Hfresh. by rewrite RegisterAll_cons, bool_decide_eq_false_2.
Qed.

Ltac run_induction calls r :=
  revert r; induction calls as [|ps calls IH]; intros r;
  [ simpl | rewrite RegisterAll_cons; case_bool_decide; simpl ].

Lemma RegisterAll_registeredNets (calls : list Params) (r : Registry) :
  registeredNets (RegisterAll calls r).1
  = list_to_set (Net <$> (RegisterAll calls r).2) ∪ registeredNets r.
Proof.
  run_induction calls r; [by rewrite (left_id_L ∅ (∪)) | apply IH |].
  rewrite IH, afterWrites_registeredNets. apply list_to_set_cons_union.
Qed.

Lemma RegisterAll_pubKeyHashAddrIDs (calls : list Params) (r : Registry) :
  pubKeyHashAddrIDs (RegisterAll calls r).1
  = list_to_set (PubKeyHashAddrID <$> (RegisterAll calls r).2)
    ∪ pubKeyHashAddrIDs r.
Proof.
  run_induction calls r; [by rewrite (left_id_L ∅ (∪)) | apply IH |].
  rewrite IH, afterWrites_pubKeyHashAddrIDs. apply list_to_set_cons_union.
Qed.

Lemma RegisterAll_scriptHashAddrIDs (calls : list Params) (r : Registry) :
  scriptHashAddrIDs (RegisterAll calls r).1
  = list_to_set (ScriptHashAddrID <$> (RegisterAll calls r).2)
    ∪ scriptHashAddrIDs r.
Proof.
  run_induction calls r; [by rewrite (left_id_L ∅ (∪)) | apply IH |].
  rewrite IH, afterWrites_scriptHashAddrIDs. apply list_to_set_cons_union.
Qed.

Lemma RegisterAll_bech32SegwitPrefixes (calls : list Params) (r : Registry) :
  bech32SegwitPrefixes (RegisterAll calls r).1
  = list_to_set ((fun ps => Bech32HRPSegwit ps +:+ "1") <$> (RegisterAll calls r).2)
    ∪ bech32SegwitPrefixes r.
Proof.
  run_induction calls r; [by rewrite (left_id_L ∅ (∪)) | apply IH |].
  rewrite IH, afterWrites_bech32SegwitPrefixes. apply list_to_set_cons_union.
Qed.

(** The HD index holds, under each key, what the last registered network
    with that private key id wrote; other keys keep what they had. *)
Lemma RegisterAll_hdPrivToPubKeyIDs (calls : list Params) (r : Registry)
    (key : Array4) :
  hdPrivToPubKeyIDs (RegisterAll calls r).1 !! key
  = match lastWithHDPrivateKeyID key (RegisterAll calls r).2 with
    | Some ps => Some (slice4 (HDPublicKeyID ps))
    | None => hdPrivToPubKeyIDs r !! key
    end.
Proof.
  unfold lastWithHDPrivateKeyID.
  run_induction calls r; [done | apply IH |].
  rewrite IH, afterWrites_hdPrivToPubKeyIDs.
  rewrite filter_cons. case_decide as Hk.
  - rewrite last_cons.
    destruct (last _); [done|]. subst key. by rewrite lookup_insert_eq.
  - destruct (last _); [done|]. by rewrite lookup_insert_ne.
Qed.

Lemma lastWithHDPrivateKeyID_Some (key : Array4) (ok : list Params) (ps : Params) :
  lastWithHDPrivateKeyID key ok = Some ps ->
  ps ∈ ok /\ HDPrivateKeyID ps = key.
Proof.
  unfold lastWithHDPrivateKeyID. intros Hlast.
  apply last_Some_elem_of, list_elem_of_filter in Hlast as [? ?]. done.
Qed.

Lemma lastWithHDPrivateKeyID_is_Some (ok : list Params) (ps : Params) :
  ps ∈ ok -> is_Some (lastWithHDPrivateKeyID (HDPrivateKeyID ps) ok).
Proof.
  unfold lastWithHDPrivateKeyID. intros Hin.
  destruct (last _) eqn:E; [by eexists|].
  apply last_None in E.
  assert (ps ∈ filter (fun ps' => HDPrivateKeyID ps' = HDPrivateKeyID ps) ok) as Hf
    by (by apply list_elem_of_filter).
  rewrite E in Hf. by apply not_elem_of_nil in Hf.
Qed.

(** Later calls extend a run: the networks registered so far stay
    registered. *)
Lemma RegisterAll_app (calls more : list Params) (r : Registry) :
  RegisterAll (calls ++ more)%list r
  = ((RegisterAll more (RegisterAll calls r).1).1,
     ((RegisterAll calls r).2 ++ (RegisterAll more (RegisterAll calls r).1).2)%list).
Proof.
  revert r; induction calls as [|ps calls IH]; intros r.
  - simpl. by destruct (RegisterAll more r).
  - rewrite <- app_comm_cons, !RegisterAll_cons.
    case_bool_decide; simpl; by rewrite IH.
Qed.

(** ** The indices and the registered networks *)

(** C2 (amended): after any sequence of [Register] calls from any
    registry, every network [ps] whose call succeeded is in the
    pubkey-hash, script-hash and bech32 indices, and stays there through
    all later calls.  The HD index has an entry under
    [HDPrivateKeyID ps]: the public key id of the network registered last
    under that private key id, which is [HDPublicKeyID ps] when no
    registered network reuses the private key id with another public key
    id. *)
Theorem registered_networks_indexed (calls : list Params) (r0 : Registry)
    (ps : Params) :
  ps ∈ (RegisterAll calls r0).2 ->
  IsPubKeyHashAddrID (PubKeyHashAddrID ps) (RegisterAll calls r0).1 = true
  /\ IsScriptHashAddrID (ScriptHashAddrID ps) (RegisterAll calls r0).1 = true
  /\ Bech32HRPSegwit ps +:+ "1" ∈ bech32SegwitPrefixes (RegisterAll calls r0).1
  /\ (exists ps',
        lastWithHDPrivateKeyID (HDPrivateKeyID ps) (RegisterAll calls r0).2
          = Some ps'
        /\ hdPrivToPubKeyIDs (RegisterAll calls r0).1 !! HDPrivateKeyID ps
           = Some (slice4 (HDPublicKeyID ps')))
  /\ ((forall ps', ps' ∈ (RegisterAll calls r0).2 ->
         HDPrivateKeyID ps' = HDPrivateKeyID ps ->
         HDPublicKeyID ps' = HDPublicKeyID ps) ->
      hdPrivToPubKeyIDs (RegisterAll calls r0).1 !! HDPrivateKeyID ps
        = Some (slice4 (HDPublicKeyID ps))).
Proof.
  intros Hin.
  assert (exists ps',
    lastWithHDPrivateKeyID (HDPrivateKeyID ps) (RegisterAll calls r0).2 = Some ps'
    /\ hdPrivToPubKeyIDs (RegisterAll calls r0).1 !! HDPrivateKeyID ps
       = Some (slice4 (HDPublicKeyID ps'))) as Hhd.
  { destruct (lastWithHDPrivateKeyID_is_Some _ _ Hin) as [ps' Hlast].
    exists ps'. split; [done|].
    by rewrite RegisterAll_hdPrivToPubKeyIDs, Hlast. }
  unfold IsPubKeyHashAddrID, IsScriptHashAddrID.
  repeat split.
  - apply bool_decide_eq_true_2.
    rewrite RegisterAll_pubKeyHashAddrIDs, elem_of_union, elem_of_list_to_set.
    left. apply list_elem_of_fmap. by exists ps.
  - apply bool_decide_eq_true_2.
    rewrite RegisterAll_scriptHashAddrIDs, elem_of_union, elem_of_list_to_set.
    left. apply list_elem_of_fmap. by exists ps.
  - rewrite RegisterAll_bech32SegwitPrefixes, elem_of_union, elem_of_list_to_set.
    left. apply list_elem_of_fmap. by exists ps.
  - exact Hhd.
  - intros Hsame. destruct Hhd as (ps' & Hlast & ->).
    apply lastWithHDPrivateKeyID_Some in Hlast as [Hin' Hkey].
    by rewrite (Hsame ps' Hin' Hkey).
Qed.

(** *** HDPrivateKeyToPublicKeyID *)

Lemma copy4_slice4 (key : Array4) : copy4 (slice4 key) = key.
Proof. by destruct key as [[[b0 b1] b2] b3]. Qed.

Lemma slice4_copy4 (id : list byte) :
  length id = 4%nat -> slice4 (copy4 id) = id.
Proof. by destruct id as [|? [|? [|? [|? [|? ?]]]]]. Qed.

Lemma length_slice4 (key : Array4) : length (slice4 key) = 4%nat.
Proof. by destruct key as [[[b0 b1] b2] b3]. Qed.

Lemma lastWithHDPrivateKeyID_None (key : Array4) (ok : list Params) :
  lastWithHDPrivateKeyID key ok = None <->
  ~ exists ps, ps ∈ ok /\ HDPrivateKeyID ps = key.
Proof.
  split.
  - intros Hnone (ps & Hin & <-).
    destruct (lastWithHDPrivateKeyID_is_Some _ _ Hin) as [? Hsome]. congruence.
  - intros Hno. destruct (lastWithHDPrivateKeyID key ok) as [ps|] eqn:E; [|done].
    apply lastWithHDPrivateKeyID_Some in E as [? ?]. destruct Hno; eauto.
Qed.

(** C3 (amended): on the registry reached from the empty maps by any
    sequence of [Register] calls, [HDPrivateKeyToPublicKeyID id] returns
    [ErrUnknownHDKeyID] when [len id] is not 4 whatever the bytes are;
    for a 4-byte [id] that is the HD private key id of a registered
    network it returns, with no error, the 4-byte public key id of the
    network registered last under that private key id; for any other
    4-byte [id] it returns [ErrUnknownHDKeyID].  The error arises in
    exactly those two cases. *)
Theorem HDPrivateKeyToPublicKeyID_spec (calls : list Params) (id : list byte) :
  (length id ≠ 4%nat ->
     HDPrivateKeyToPublicKeyID id (RegisterAll calls newRegistry).1
     = ([], Some ErrUnknownHDKeyID))
  /\ (length id = 4%nat ->
      match lastWithHDPrivateKeyID (copy4 id) (RegisterAll calls newRegistry).2 with
      | Some ps =>
          HDPrivateKeyToPublicKeyID id (RegisterAll calls newRegistry).1
          = (slice4 (HDPublicKeyID ps), None)
      | None =>
          HDPrivateKeyToPublicKeyID id (RegisterAll calls newRegistry).1
          = ([], Some ErrUnknownHDKeyID)
      end)
  /\ ((HDPrivateKeyToPublicKeyID id (RegisterAll calls newRegistry).1).2
        = Some ErrUnknownHDKeyID
      <-> (length id ≠ 4%nat
           \/ ~ exists ps, ps ∈ (RegisterAll calls newRegistry).2
                           /\ slice4 (HDPrivateKeyID ps) = id))
  /\ ((HDPrivateKeyToPublicKeyID id (RegisterAll calls newRegistry).1).2
        ≠ Some ErrUnknownHDKeyID ->
      (HDPrivateKeyToPublicKeyID id (RegisterAll calls newRegistry).1).2 = None
      /\ length (HDPrivateKeyToPublicKeyID id (RegisterAll calls newRegistry).1).1
         = 4%nat).
Proof.
  unfold HDPrivateKeyToPublicKeyID.
  rewrite RegisterAll_hdPrivToPubKeyIDs.
  case_bool_decide as Hlen.
  - repeat split; try done.
    + intros _. by left.
  - destruct (lastWithHDPrivateKeyID (copy4 id) _) as [ps|] eqn:Hlast; simpl.
    + apply lastWithHDPrivateKeyID_Some in Hlast as [Hin Hkey].
      repeat split; try done.
      * intros [Hne | Hno]; [done|]. destruct Hno. exists ps. split; [done|].
        by rewrite Hkey, slice4_copy4.
      * apply length_slice4.
    + repeat split; try done.
      intros _. right. intros (ps & Hin & Hid).
      apply lastWithHDPrivateKeyID_None in Hlast. apply Hlast.
      exists ps. split; [done|]. by rewrite <- Hid, copy4_slice4.
Qed.

(** *** IsBech32SegwitPrefix *)

Lemma lowerByte_below_RuneSelf (c : ascii) :
  (N_of_ascii (lowerByte c) <? RuneSelf)%N = (N_of_ascii c <? RuneSelf)%N.
Proof. by destruct c as [[] [] [] [] [] [] [] []]. Qed.

Lemma isASCII_mapBytes_lowerByte (s : string) :
  isASCII (mapBytes lowerByte s) = isASCII s.
Proof.
  induction s as [|c s IH]; [done|].
  simpl. by rewrite lowerByte_below_RuneSelf, IH.
Qed.

Lemma mapBytes_lowerByte_no_upper (s : string) :
  hasUpper s = false -> mapBytes lowerByte s = s.
Proof.
  induction s as [|c s IH]; [done|].
  simpl. intros [Hc Hs]%orb_false_iff.
  rewrite IH by done. unfold lowerByte. by rewrite Hc.
Qed.

Lemma ToLower_ASCII (s : string) :
  isASCII s = true -> ToLower s = mapBytes lowerByte s.
Proof.
  intros Hs. unfold ToLower. rewrite Hs.
  destruct (hasUpper s) eqn:Hup; [done|].
  simpl. by rewrite mapBytes_lowerByte_no_upper.
Qed.





(** ** The built-in tables *)

Lemma heightsIncreasing_tail (a : Checkpoint) (cs : list Checkpoint) :
  heightsIncreasing (a :: cs) = true -> heightsIncreasing cs = true.
Proof. destruct cs as [|b cs]; [done|]. simpl. by intros [_ ?]%andb_true_iff. Qed.

Lemma heightsIncreasing_head (cs : list Checkpoint) :
  forall a j b, heightsIncreasing (a :: cs) = true -> cs !! j = Some b ->
    Height a < Height b.
Proof.
  induction cs as [|b0 cs IH]; intros a j b Hinc Hj; [done|].
  pose proof Hinc as Hinc'. simpl in Hinc'.
  apply andb_true_iff in Hinc' as [Hab%Z.ltb_lt Hrest].
  destruct j as [|j]; simpl in Hj.
  - by inversion Hj; subst.
  - specialize (IH b0 j b Hrest Hj). lia.
Qed.

Lemma heightsIncreasing_sound (cs : list Checkpoint) :
  heightsIncreasing cs = true -> strictlyIncreasing cs.
Proof.
  induction cs as [|c cs IH]; intros Hinc i j a b Hij Hi Hj.
  - done.
  - destruct j as [|j]; [lia|]. simpl in Hj.
    destruct i as [|i]; simpl in Hi.
    + inversion Hi; subst. by eapply heightsIncreasing_head.
    + eapply (IH (heightsIncreasing_tail _ _ Hinc) i j); [lia|done..].
Qed.

(** C6: in each built-in parameter set the checkpoints are strictly
    increasing by height: the twenty of the main network, the three of
    testnet3, and the empty table of the regression test network. *)
Theorem builtin_checkpoints_strictly_increasing :
  strictlyIncreasing (Checkpoints MainNetParams)
  /\ strictlyIncreasing (Checkpoints TestNet3Params)
  /\ strictlyIncreasing (Checkpoints RegressionNetParams)
  /\ Height <$> Checkpoints MainNetParams
     = [4991; 9918; 16912; 23912; 35457; 45479; 55895; 68899; 74619; 75095;
        88805; 107996; 137993; 167996; 207992; 312645; 407452; 523412;
        523930; 750000]
  /\ Height <$> Checkpoints TestNet3Params = [261; 1999; 2999]
  /\ Checkpoints RegressionNetParams = [].
Proof.
  repeat split; try reflexivity; by apply heightsIncreasing_sound.
Qed.

(** C7: in each built-in parameter set the deployment table has its three
    entries (TestDummy, CSV, Segwit) and every entry starts no later than
    it expires. *)
Theorem builtin_deployments_start_before_expire :
  Forall (fun ps =>
            length (Deployments ps) = DefinedDeployments
            /\ Forall (fun d => StartTime d <= ExpireTime d) (Deployments ps))
         [MainNetParams; RegressionNetParams; TestNet3Params].
Proof.
  repeat constructor; by vm_compute.
Qed.

(** ** Register statement by statement *)

(** C8 (amended): [Register] holds no lock and swaps no snapshot; a call
    with a fresh magic writes the set of magics first and then the four
    indices, one assignment after the other.  Run to completion it
    leaves the magic and all four entries in place, so a reader that runs
    before or after the call sees all of the update or none of it; at
    each point between the first and the last assignment the magic is
    registered while the bech32 index is still what it was before the
    call. *)
Theorem Register_writes_one_by_one (ps : Params) (r : Registry) :
  Net ps ∉ registeredNets r ->
  afterWrites 0 ps r = r
  /\ Register ps r = Done None (afterWrites 5 ps r)
  /\ (Net ps ∈ registeredNets (afterWrites 5 ps r)
      /\ IsPubKeyHashAddrID (PubKeyHashAddrID ps) (afterWrites 5 ps r) = true
      /\ IsScriptHashAddrID (ScriptHashAddrID ps) (afterWrites 5 ps r) = true
      /\ Bech32HRPSegwit ps +:+ "1" ∈ bech32SegwitPrefixes (afterWrites 5 ps r)
      /\ HDPrivateKeyToPublicKeyID (slice4 (HDPrivateKeyID ps)) (afterWrites 5 ps r)
         = (slice4 (HDPublicKeyID ps), None))
  /\ (forall k, (1 <= k < 5)%nat ->
        Net ps ∈ registeredNets (afterWrites k ps r)
        /\ bech32SegwitPrefixes (afterWrites k ps r) = bech32SegwitPrefixes r).
Proof.
  intros Hfresh. split; [done|]. split; [by apply Register_fresh|]. split.
  - unfold IsPubKeyHashAddrID, IsScriptHashAddrID, HDPrivateKeyToPublicKeyID.
    rewrite length_slice4, copy4_slice4.
    rewrite afterWrites_registeredNets, afterWrites_pubKeyHashAddrIDs,
      afterWrites_scriptHashAddrIDs, afterWrites_bech32SegwitPrefixes,
      afterWrites_hdPrivToPubKeyIDs, lookup_insert_eq.
    rewrite !bool_decide_eq_true, !elem_of_union, !elem_of_singleton.
    repeat split; by left.
  - intros k Hk.
    assert (k = 1 \/ k = 2 \/ k = 3 \/ k = 4)%nat
      as [-> | [-> | [-> | ->]]] by lia;
      (split; [|reflexivity]); cbn;
      rewrite elem_of_union, elem_of_singleton; by left.
Qed.

(** ** Package initialization *)

Lemma mustRegister_fresh (ps : Params) (r : Registry) :
  Net ps ∉ registeredNets r ->
  mustRegister ps r = Done tt (afterWrites 5 ps r).
Proof.
  intros Hfresh. unfold mustRegister, mbind, Go_bind.
  by rewrite Register_fresh.
Qed.

Lemma mustRegister_duplicate (ps : Params) (r : Registry) :
  Net ps ∈ registeredNets r ->
  mustRegister ps r = Panic "failed to register network: duplicate DASH network".
Proof.
  intros Hdup. unfold mustRegister, mbind, Go_bind.
  by rewrite Register_unfold, bool_decide_eq_true_2.
Qed.

Lemma init_unfold (r : Registry) :
  init r =
    match mustRegister MainNetParams r with
    | Done _ r1 =>
        match mustRegister TestNet3Params r1 with
        | Done _ r2 => mustRegister RegressionNetParams r2
        | Panic msg => Panic msg
        end
    | Panic msg => Panic msg
    end.
Proof. reflexivity. Qed.

Ltac fresh_magic :=
  cbn; rewrite ?elem_of_union, ?elem_of_singleton, ?elem_of_empty;
  intuition congruence.

Lemma init_distinct :
  MainNet ≠ TestNet3 -> MainNet ≠ TestNet -> TestNet3 ≠ TestNet ->
  mustRegister MainNetParams newRegistry
    = Done tt (afterWrites 5 MainNetParams newRegistry)
  /\ mustRegister TestNet3Params (afterWrites 5 MainNetParams newRegistry)
     = Done tt (afterWrites 5 TestNet3Params
                  (afterWrites 5 MainNetParams newRegistry))
  /\ mustRegister RegressionNetParams
       (afterWrites 5 TestNet3Params (afterWrites 5 MainNetParams newRegistry))
     = Done tt (afterWrites 5 RegressionNetParams
                  (afterWrites 5 TestNet3Params
                     (afterWrites 5 MainNetParams newRegistry))).
Proof.
  intros H13 H1r H3r. repeat split; apply mustRegister_fresh; fresh_magic.
Qed.

(** Without distinct magics initialization panics. *)
Lemma init_panics_on_shared_magic :
  MainNet = TestNet3 \/ MainNet = TestNet \/ TestNet3 = TestNet ->
  init newRegistry = Panic "failed to register network: duplicate DASH network".
Proof.
  intros Hshared. rewrite init_unfold.
  rewrite mustRegister_fresh by fresh_magic.
  destruct (decide (MainNet = TestNet3)) as [H13|H13].
  { rewrite mustRegister_duplicate; [done|]. fresh_magic. }
  rewrite mustRegister_fresh by fresh_magic.
  rewrite mustRegister_duplicate; [done|]. fresh_magic.
Qed.

(** ** Further properties of the registry *)

Lemma registeredNets_RegisterAll_mono (calls : list Params) (r : Registry)
    (net : wire.DASHNet) :
  net ∈ registeredNets r -> net ∈ registeredNets (RegisterAll calls r).1.
Proof.
  intros Hin. rewrite RegisterAll_registeredNets, elem_of_union. by right.
Qed.

Lemma RegisterAll_ok_fresh (calls : list Params) (r : Registry) (q : Params) :
  q ∈ (RegisterAll calls r).2 -> Net q ∉ registeredNets r.
Proof.
  run_induction calls r.
  - by intros ?%not_elem_of_nil.
  - apply IH.
  - intros [->|Hin]%elem_of_cons; [done|].
    apply IH in Hin. rewrite afterWrites_registeredNets in Hin.
    intros Hr. apply Hin, elem_of_union. by right.
Qed.

Lemma RegisterAll_calls_registered (calls : list Params) (r : Registry)
    (q : Params) :
  q ∈ calls -> Net q ∈ registeredNets (RegisterAll calls r).1.
Proof.
  revert q. run_induction calls r.
  - by intros q ?%not_elem_of_nil.
  - intros q [->|Hin]%elem_of_cons; [|by apply IH].
    by apply registeredNets_RegisterAll_mono.
  - intros q [->|Hin]%elem_of_cons; [|by apply IH].
    apply registeredNets_RegisterAll_mono.
    rewrite afterWrites_registeredNets, elem_of_union, elem_of_singleton.
    by left.
Qed.

(** X1: in any run of [Register] calls the networks that registered have
    pairwise distinct magics, none of which was registered before the
    run; the set of magics afterwards is the set before plus theirs; and
    the magic of every call, successful or not, is registered at the
    end. *)
Theorem registered_magics_unique (calls : list Params) (r : Registry) :
  NoDup (Net <$> (RegisterAll calls r).2)
  /\ (forall ps, ps ∈ (RegisterAll calls r).2 -> Net ps ∉ registeredNets r)
  /\ registeredNets (RegisterAll calls r).1
     = list_to_set (Net <$> (RegisterAll calls r).2) ∪ registeredNets r
  /\ (forall ps, ps ∈ calls -> Net ps ∈ registeredNets (RegisterAll calls r).1).
Proof.
  split; [|split; [|split]].
  - run_induction calls r; [constructor | apply IH |].
    apply NoDup_cons. split; [|apply IH].
    intros (q & Hq & Hin)%list_elem_of_fmap.
    apply RegisterAll_ok_fresh in Hin.
    rewrite afterWrites_registeredNets in Hin.
    apply Hin, elem_of_union. left. by apply elem_of_singleton.
  - intros ps. apply RegisterAll_ok_fresh.
  - apply RegisterAll_registeredNets.
  - intros ps. apply RegisterAll_calls_registered.
Qed.

(** X2: a byte or a prefix is known after a run of [Register] calls
    exactly when it was known before or a network registered in the run
    carries it: the lookups never lose an entry and never report an id
    that no network brought. *)
Theorem lookups_after_run (calls : list Params) (r : Registry)
    (id : byte) (prefix : string) :
  (IsPubKeyHashAddrID id (RegisterAll calls r).1 = true
   <-> IsPubKeyHashAddrID id r = true
       \/ exists ps, ps ∈ (RegisterAll calls r).2 /\ PubKeyHashAddrID ps = id)
  /\ (IsScriptHashAddrID id (RegisterAll calls r).1 = true
      <-> IsScriptHashAddrID id r = true
          \/ exists ps, ps ∈ (RegisterAll calls r).2 /\ ScriptHashAddrID ps = id)
  /\ (IsBech32SegwitPrefix prefix (RegisterAll calls r).1 = true
      <-> IsBech32SegwitPrefix prefix r = true
          \/ exists ps, ps ∈ (RegisterAll calls r).2
                       /\ Bech32HRPSegwit ps +:+ "1" = ToLower prefix).
Proof.
  unfold IsPubKeyHashAddrID, IsScriptHashAddrID, IsBech32SegwitPrefix.
  rewrite !bool_decide_eq_true.
  rewrite RegisterAll_pubKeyHashAddrIDs, RegisterAll_scriptHashAddrIDs,
    RegisterAll_bech32SegwitPrefixes.
  rewrite !elem_of_union, !elem_of_list_to_set, !list_elem_of_fmap.
  repeat split.
  all: try (intros [(ps & Heq & Hin) | Hold]; [right; by exists ps | by left]).
  all: intros [Hold | (ps & Hin & Heq)]; [by right | left; by exists ps].
Qed.

(** X3: a run of [Register] calls leaves the HD lookup of [id] as it was
    when no network registered in the run has [id] as its HD private key
    id, and a lookup that succeeded before the run succeeds after it. *)
Theorem HD_lookup_after_run (calls : list Params) (r : Registry)
    (id : list byte) :
  ((~ exists ps, ps ∈ (RegisterAll calls r).2
                /\ slice4 (HDPrivateKeyID ps) = id) ->
   HDPrivateKeyToPublicKeyID id (RegisterAll calls r).1
   = HDPrivateKeyToPublicKeyID id r)
  /\ ((HDPrivateKeyToPublicKeyID id r).2 = None ->
      (HDPrivateKeyToPublicKeyID id (RegisterAll calls r).1).2 = None).
Proof.
  unfold HDPrivateKeyToPublicKeyID.
  rewrite RegisterAll_hdPrivToPubKeyIDs.
  case_bool_decide as Hlen; [done|].
  destruct (lastWithHDPrivateKeyID (copy4 id) _) as [ps|] eqn:Hlast; [|done].
  apply lastWithHDPrivateKeyID_Some in Hlast as [Hin Hkey].
  split; [|done].
  intros Hno. destruct Hno. exists ps. split; [done|].
  by rewrite Hkey, slice4_copy4.
Qed.

Lemma RegisterAll_all_registered (calls : list Params) (r : Registry) :
  (forall ps, ps ∈ calls -> Net ps ∈ registeredNets r) ->
  RegisterAll calls r = (r, []).
Proof.
  induction calls as [|ps calls IH]; intros Hall; [done|].
  rewrite RegisterAll_cons, bool_decide_eq_true_2
    by (apply Hall, list_elem_of_here).
  apply IH. intros q Hq. by apply Hall, list_elem_of_further.
Qed.

(** X4: registering again what was just submitted does nothing.  A second
    [Register] of the same parameter set returns [ErrDuplicateNet] and
    keeps the registry, whether the first call succeeded or not; and
    replaying a whole sequence of calls on the registry it produced
    registers no network and changes no map. *)
Theorem Register_replay (calls : list Params) (ps : Params) (r : Registry) :
  (exists err r1, Register ps r = Done err r1
                  /\ Register ps r1 = Done (Some ErrDuplicateNet) r1)
  /\ RegisterAll calls (RegisterAll calls r).1 = ((RegisterAll calls r).1, [])
  /\ RegisterAll (calls ++ calls)%list r = RegisterAll calls r.
Proof.
  assert (RegisterAll calls (RegisterAll calls r).1
          = ((RegisterAll calls r).1, [])) as Hreplay.
  { apply RegisterAll_all_registered. intros q Hq.
    by apply RegisterAll_calls_registered. }
  split; [|split; [exact Hreplay|]].
  - rewrite Register_unfold. case_bool_decide as Hreg.
    + do 2 eexists. split; [done|].
      by rewrite Register_unfold, bool_decide_eq_true_2.
    + do 2 eexists. split; [done|].
      rewrite Register_unfold, bool_decide_eq_true_2; [done|].
      rewrite afterWrites_registeredNets, elem_of_union, elem_of_singleton.
      by left.
  - rewrite RegisterAll_app, Hreplay. simpl. rewrite app_nil_r.
    by destruct (RegisterAll calls r).
Qed.

Lemma RegisterAll_all_fresh (calls : list Params) (r : Registry) :
  NoDup (Net <$> calls) ->
  (forall q, q ∈ calls -> Net q ∉ registeredNets r) ->
  (RegisterAll calls r).2 = calls.
Proof.
  revert r. induction calls as [|ps calls IH]; intros r Hnodup Hfresh; [done|].
  rewrite fmap_cons in Hnodup. apply NoDup_cons in Hnodup as [Hps Hnodup].
  rewrite RegisterAll_cons_fresh by (apply Hfresh, list_elem_of_here).
  simpl. f_equal. apply IH; [done|].
  intros q Hq. rewrite afterWrites_registeredNets, elem_of_union, elem_of_singleton.
  intros [Heq|Hr].
  - apply Hps. rewrite <- Heq. by apply list_elem_of_fmap_2.
  - by apply (Hfresh q (list_elem_of_further _ _ _ Hq)).
Qed.

Lemma Registry_eq (r r' : Registry) :
  registeredNets r = registeredNets r' ->
  pubKeyHashAddrIDs r = pubKeyHashAddrIDs r' ->
  scriptHashAddrIDs r = scriptHashAddrIDs r' ->
  bech32SegwitPrefixes r = bech32SegwitPrefixes r' ->
  hdPrivToPubKeyIDs r = hdPrivToPubKeyIDs r' ->
  r = r'.
Proof. destruct r, r'; simpl; by intros -> -> -> -> ->. Qed.

(** X5: the order of registration does not matter for networks with
    pairwise distinct, unregistered magics: all of them register, in
    either order, and the set of magics and the pubkey-hash, script-hash
    and bech32 indices come out the same.  When, besides, networks that
    share an HD private key id also share the public key id, the two
    registries are equal. *)
Theorem Register_order_irrelevant (calls calls' : list Params) (r : Registry) :
  calls ≡ₚ calls' ->
  NoDup (Net <$> calls) ->
  (forall q, q ∈ calls -> Net q ∉ registeredNets r) ->
  ((RegisterAll calls r).2 = calls /\ (RegisterAll calls' r).2 = calls')
  /\ registeredNets (RegisterAll calls r).1
     = registeredNets (RegisterAll calls' r).1
  /\ pubKeyHashAddrIDs (RegisterAll calls r).1
     = pubKeyHashAddrIDs (RegisterAll calls' r).1
  /\ scriptHashAddrIDs (RegisterAll calls r).1
     = scriptHashAddrIDs (RegisterAll calls' r).1
  /\ bech32SegwitPrefixes (RegisterAll calls r).1
     = bech32SegwitPrefixes (RegisterAll calls' r).1
  /\ ((forall p q, p ∈ calls -> q ∈ calls ->
         HDPrivateKeyID p = HDPrivateKeyID q ->
         HDPublicKeyID p = HDPublicKeyID q) ->
      (RegisterAll calls r).1 = (RegisterAll calls' r).1).
Proof.
  intros Hperm Hnodup Hfresh.
  assert ((RegisterAll calls r).2 = calls) as Hok
    by (by apply RegisterAll_all_fresh).
  assert ((RegisterAll calls' r).2 = calls') as Hok'.
  { apply RegisterAll_all_fresh.
    - by rewrite <- Hperm.
    - intros q Hq. apply Hfresh. by rewrite Hperm. }
  assert (registeredNets (RegisterAll calls r).1
          = registeredNets (RegisterAll calls' r).1) as Hnets
    by (by rewrite !RegisterAll_registeredNets, Hok, Hok', Hperm).
  assert (pubKeyHashAddrIDs (RegisterAll calls r).1
          = pubKeyHashAddrIDs (RegisterAll calls' r).1) as Hpk
    by (by rewrite !RegisterAll_pubKeyHashAddrIDs, Hok, Hok', Hperm).
  assert (scriptHashAddrIDs (RegisterAll calls r).1
          = scriptHashAddrIDs (RegisterAll calls' r).1) as Hsh
    by (by rewrite !RegisterAll_scriptHashAddrIDs, Hok, Hok', Hperm).
  assert (bech32SegwitPrefixes (RegisterAll calls r).1
          = bech32SegwitPrefixes (RegisterAll calls' r).1) as Hbech
    by (by rewrite !RegisterAll_bech32SegwitPrefixes, Hok, Hok', Hperm).
  repeat split; try done.
  intros Hhd. apply Registry_eq; try done.
  apply map_eq. intros key. rewrite !RegisterAll_hdPrivToPubKeyIDs, Hok, Hok'.
  destruct (lastWithHDPrivateKeyID key calls) as [p|] eqn:Hp;
    destruct (lastWithHDPrivateKeyID key calls') as [q|] eqn:Hq; [| | |done].
  - apply lastWithHDPrivateKeyID_Some in Hp as [Hpin Hpk'].
    apply lastWithHDPrivateKeyID_Some in Hq as [Hqin Hqk].
    rewrite <- Hperm in Hqin.
    by rewrite (Hhd p q Hpin Hqin) by congruence.
  - apply lastWithHDPrivateKeyID_Some in Hp as [Hpin Hpk'].
    apply lastWithHDPrivateKeyID_None in Hq. destruct Hq.
    exists p. by rewrite <- Hperm.
  - apply lastWithHDPrivateKeyID_Some in Hq as [Hqin Hqk].
    apply lastWithHDPrivateKeyID_None in Hp. destruct Hp.
    exists q. by rewrite Hperm.
Qed.

(** X6: [mustRegister] panics exactly when [Register] returns an error,
    that is when the magic is already registered, and then with the
    message of [ErrDuplicateNet]; otherwise it leaves the registry that
    [Register] leaves. *)
Theorem mustRegister_panics_iff (ps : Params) (r : Registry) :
  (mustRegister ps r
     = Panic "failed to register network: duplicate DASH network"
   <-> Net ps ∈ registeredNets r)
  /\ ((exists r', mustRegister ps r = Done tt r' /\ Register ps r = Done None r')
      <-> Net ps ∉ registeredNets r)
  /\ (forall msg, mustRegister ps r = Panic msg ->
        Register ps r = Done (Some ErrDuplicateNet) r
        /\ msg = "failed to register network: " +:+ Error ErrDuplicateNet).
Proof.
  unfold mustRegister, mbind, Go_bind. rewrite Register_unfold.
  case_bool_decide as Hreg; simpl.
  - split; [done|]. split.
    + split; [by intros (r' & Hdone & _) | done].
    + by intros msg [= <-].
  - split; [done|]. split; [|done].
    split; [done|]. intros _. by eexists.
Qed.

(** X7: package initialization completes exactly when the three built-in
    magics are pairwise distinct; otherwise it panics with the duplicate
    network message. *)
Theorem init_completes_iff_distinct :
  ((exists r, init newRegistry = Done tt r)
   <-> MainNet ≠ TestNet3 /\ MainNet ≠ TestNet /\ TestNet3 ≠ TestNet)
  /\ (init newRegistry
       = Panic "failed to register network: duplicate DASH network"
      <-> MainNet = TestNet3 \/ MainNet = TestNet \/ TestNet3 = TestNet).
Proof.
  destruct (decide (MainNet = TestNet3 \/ MainNet = TestNet \/ TestNet3 = TestNet))
    as [Hshared|Hdistinct].
  - rewrite (init_panics_on_shared_magic Hshared).
    split; split; try done.
    + by intros [r ?].
    + intros (? & ? & ?). destruct Hshared as [?|[?|?]]; done.
  - assert (MainNet ≠ TestNet3 /\ MainNet ≠ TestNet /\ TestNet3 ≠ TestNet)
      as (H13 & H1r & H3r) by (repeat split; intros ?; apply Hdistinct; auto).
    destruct (init_distinct H13 H1r H3r) as (Hmain & Htest3 & Hreg).
    rewrite init_unfold, Hmain, Htest3, Hreg.
    split; split; try done.
    intros _. by eexists.
Qed.

(** X8: the registry that [init] builds, given the three built-in magics
    distinct, knows exactly the pubkey-hash ids 0x4c and 0x8c and the
    script-hash ids 0x10 and 0x13, so that no byte is both on the default
    networks; and it refuses every parameter set that carries one of the
    three built-in magics. *)
Theorem default_registry_address_ids :
  MainNet ≠ TestNet3 -> MainNet ≠ TestNet -> TestNet3 ≠ TestNet ->
  exists r, init newRegistry = Done tt r
    /\ (forall id, IsPubKeyHashAddrID id r = true <-> id = x4c \/ id = x8c)
    /\ (forall id, IsScriptHashAddrID id r = true <-> id = x10 \/ id = x13)
    /\ (forall id, ~ (IsPubKeyHashAddrID id r = true
                     /\ IsScriptHashAddrID id r = true))
    /\ (forall ps, Net ps = MainNet \/ Net ps = TestNet \/ Net ps = TestNet3 ->
          Register ps r = Done (Some ErrDuplicateNet) r).
Proof.
  intros H13 H1r H3r.
  destruct (init_distinct H13 H1r H3r) as (Hmain & Htest3 & Hreg).
  eexists. split; [by rewrite init_unfold, Hmain, Htest3, Hreg|].
  assert (forall id,
    IsPubKeyHashAddrID id
      (afterWrites 5 RegressionNetParams
         (afterWrites 5 TestNet3Params (afterWrites 5 MainNetParams newRegistry)))
    = true <-> id = x4c \/ id = x8c) as Hpk.
  { intros id. unfold IsPubKeyHashAddrID. rewrite bool_decide_eq_true. cbn.
    rewrite !elem_of_union, !elem_of_singleton, elem_of_empty. tauto. }
  assert (forall id,
    IsScriptHashAddrID id
      (afterWrites 5 RegressionNetParams
         (afterWrites 5 TestNet3Params (afterWrites 5 MainNetParams newRegistry)))
    = true <-> id = x10 \/ id = x13) as Hsh.
  { intros id. unfold IsScriptHashAddrID. rewrite bool_decide_eq_true. cbn.
    rewrite !elem_of_union, !elem_of_singleton, elem_of_empty. tauto. }
  split; [exact Hpk|]. split; [exact Hsh|]. split.
  - intros id [Hp%Hpk Hs%Hsh].
    destruct Hp as [->| ->]; destruct Hs as [?|?]; discriminate.
  - intros ps Hnet. rewrite Register_unfold, bool_decide_eq_true_2; [done|].
    cbn. rewrite !elem_of_union, !elem_of_singleton. tauto.
Qed.

(** X9: on the registry that [init] builds, given the three built-in
    magics distinct, [HDPrivateKeyToPublicKeyID] maps 0x0488ade4 to
    0x0488b21e and 0x04358394 to 0x043587cf and fails on every other
    input; and an ASCII prefix is a known segwit prefix exactly when it
    is ["bc1"] or ["tb1"] in any letter case. *)
Theorem default_registry_HD_keys_and_prefixes :
  MainNet ≠ TestNet3 -> MainNet ≠ TestNet -> TestNet3 ≠ TestNet ->
  exists r, init newRegistry = Done tt r
    /\ (forall id,
          HDPrivateKeyToPublicKeyID id r
          = if bool_decide (id = [x04; x88; xad; xe4])
            then ([x04; x88; xb2; x1e], None)
            else if bool_decide (id = [x04; x35; x83; x94])
                 then ([x04; x35; x87; xcf], None)
                 else ([], Some ErrUnknownHDKeyID))
    /\ (forall s, isASCII s = true ->
          (IsBech32SegwitPrefix s r = true
           <-> mapBytes lowerByte s = "bc1" \/ mapBytes lowerByte s = "tb1")).
Proof.
  intros H13 H1r H3r.
  destruct (init_distinct H13 H1r H3r) as (Hmain & Htest3 & Hreg).
  eexists. split; [by rewrite init_unfold, Hmain, Htest3, Hreg|]. split.
  - intros id. unfold HDPrivateKeyToPublicKeyID.
    case_bool_decide as Hlen.
    + rewrite !bool_decide_eq_false_2; [done|by intros ->..].
    + destruct id as [|a [|b [|c [|d [|e l]]]]]; try done.
      change (copy4 [a; b; c; d]) with (a, b, c, d).
      cbn. rewrite !lookup_insert, lookup_empty.
      repeat case_decide; repeat case_bool_decide; simplify_eq; done.
  - intros s Hs. unfold IsBech32SegwitPrefix.
    rewrite ToLower_ASCII, bool_decide_eq_true by done. cbn.
    rewrite !elem_of_union, !elem_of_singleton, elem_of_empty. tauto.
Qed.

(** X10: [IsBech32SegwitPrefix] does not distinguish the case of ASCII
    letters in the prefix it is given, whatever the registry holds. *)
Theorem IsBech32SegwitPrefix_case_insensitive (s t : string) (r : Registry) :
  isASCII s = true ->
  equalUpToASCIICase s t ->
  IsBech32SegwitPrefix s r = IsBech32SegwitPrefix t r.
Proof.
  unfold equalUpToASCIICase. intros Hs Hfold.
  assert (isASCII t = true) as Ht.
  { by rewrite <- isASCII_mapBytes_lowerByte, <- Hfold,
      isASCII_mapBytes_lowerByte. }
  unfold IsBech32SegwitPrefix. by rewrite !ToLower_ASCII, Hfold.
Qed.

(** X11: [Register] succeeds exactly when the magic is not yet
    registered and returns [ErrDuplicateNet], keeping the registry,
    exactly when it is; no other field of the parameter set, shared with
    a registered network or not, has a say, so two parameter sets with
    the same magic fare alike.  A successful call adds the magic to the
    set of magics and one entry to each index, and the same parameter
    set is refused from then on. *)
Theorem Register_succeeds_iff_fresh_magic (ps : Params) (r : Registry) :
  ((exists r', Register ps r = Done None r') <-> Net ps ∉ registeredNets r)
  /\ (Register ps r = Done (Some ErrDuplicateNet) r
      <-> Net ps ∈ registeredNets r)
  /\ (forall r', Register ps r = Done None r' ->
        registeredNets r' = {[ Net ps ]} ∪ registeredNets r
        /\ pubKeyHashAddrIDs r'
           = {[ PubKeyHashAddrID ps ]} ∪ pubKeyHashAddrIDs r
        /\ scriptHashAddrIDs r'
           = {[ ScriptHashAddrID ps ]} ∪ scriptHashAddrIDs r
        /\ bech32SegwitPrefixes r'
           = {[ Bech32HRPSegwit ps +:+ "1" ]} ∪ bech32SegwitPrefixes r
        /\ hdPrivToPubKeyIDs r'
           = <[ HDPrivateKeyID ps := slice4 (HDPublicKeyID ps) ]>
               (hdPrivToPubKeyIDs r)
        /\ Register ps r' = Done (Some ErrDuplicateNet) r')
  /\ (forall ps', Net ps' = Net ps ->
        ((exists r', Register ps' r = Done None r')
         <-> (exists r', Register ps r = Done None r'))).
Proof.
  split; [|split; [|split]].
  - rewrite Register_unfold. case_bool_decide as Hreg.
    + split; [by intros [r' ?] | done].
    + split; [done | intros _; by eexists].
  - rewrite Register_unfold. case_bool_decide as Hreg; by split.
  - intros r'. rewrite Register_unfold. case_bool_decide as Hreg; [done|].
    intros [= <-].
    rewrite afterWrites_registeredNets, afterWrites_pubKeyHashAddrIDs,
      afterWrites_scriptHashAddrIDs, afterWrites_bech32SegwitPrefixes,
      afterWrites_hdPrivToPubKeyIDs.
    repeat split.
    rewrite Register_unfold, bool_decide_eq_true_2; [done|].
    rewrite afterWrites_registeredNets, elem_of_union, elem_of_singleton.
    by left.
  - intros ps' Hnet. rewrite !Register_unfold, Hnet.
    case_bool_decide as Hreg.
    + split; by intros [r' ?].
    + split; intros _; by eexists.
Qed.

(** X12: the regression test network and testnet3 carry the same
    pubkey-hash id 0x8c and the same script-hash id 0x13.  On a registry
    that has neither of their magics, the two magics being distinct, both
    register, in either order; afterwards [IsPubKeyHashAddrID 0x8c] and
    [IsScriptHashAddrID 0x13] are true, the same plain [true] they are
    when only one of the two is registered. *)
Theorem shared_address_ids_do_not_block (r : Registry) :
  TestNet3 ≠ TestNet ->
  TestNet3 ∉ registeredNets r ->
  TestNet ∉ registeredNets r ->
  (PubKeyHashAddrID RegressionNetParams = x8c
   /\ PubKeyHashAddrID TestNet3Params = x8c
   /\ ScriptHashAddrID RegressionNetParams = x13
   /\ ScriptHashAddrID TestNet3Params = x13)
  /\ (RegisterAll [TestNet3Params; RegressionNetParams] r).2
     = [TestNet3Params; RegressionNetParams]
  /\ (RegisterAll [RegressionNetParams; TestNet3Params] r).2
     = [RegressionNetParams; TestNet3Params]
  /\ (IsPubKeyHashAddrID x8c
        (RegisterAll [TestNet3Params; RegressionNetParams] r).1 = true
      /\ IsScriptHashAddrID x13
           (RegisterAll [TestNet3Params; RegressionNetParams] r).1 = true)
  /\ (IsPubKeyHashAddrID x8c (RegisterAll [TestNet3Params] r).1 = true
      /\ IsScriptHashAddrID x13 (RegisterAll [TestNet3Params] r).1 = true
      /\ IsPubKeyHashAddrID x8c (RegisterAll [RegressionNetParams] r).1 = true
      /\ IsScriptHashAddrID x13 (RegisterAll [RegressionNetParams] r).1 = true).
Proof.
  intros Hne H3 Hr.
  assert (forall net net' : wire.DASHNet,
            net ≠ net' -> net ∉ registeredNets r ->
            net ∉ {[ net' ]} ∪ registeredNets r) as Hstill.
  { intros net net' Hnn Hnet.
    rewrite elem_of_union, elem_of_singleton. tauto. }
  split; [done|].
  rewrite !RegisterAll_cons_fresh;
    try done; try (by apply Hstill).
  unfold IsPubKeyHashAddrID, IsScriptHashAddrID. cbn.
  rewrite !bool_decide_eq_true, !elem_of_union, !elem_of_singleton.
  repeat split; tauto.
Qed.

End Chaincfg.

(** ** Concrete runs

    The magics 1, 2 and 3 stand for [wire.MainNet], [wire.TestNet] and
    [wire.TestNet3]; [strings.Map(unicode.ToLower, s)] is never reached
    on the ASCII strings used here, and the identity stands for it. *)

Lemma Register_duplicate_unchanged_witness :
  Net (MainNetParams 1) ∈ registeredNets (RegisterAll [MainNetParams 1] newRegistry).1
  /\ Register (MainNetParams 1) (RegisterAll [MainNetParams 1] newRegistry).1
     = Done (Some ErrDuplicateNet) (RegisterAll [MainNetParams 1] newRegistry).1.
Proof.
  assert (Net (MainNetParams 1)
          ∈ registeredNets (RegisterAll [MainNetParams 1] newRegistry).1) as Hdup
    by compute_done.
  split; [exact Hdup|].
  exact (Register_duplicate_unchanged (MainNetParams 1) _ Hdup).
Defined.

(** C2, as claimed, fails: [exampleAlpha] and then [exampleBeta] both
    register; afterwards the HD index maps the private key id of
    [exampleAlpha] to the public key id of [exampleBeta], not to its
    own. *)
Lemma HD_index_entry_overwritten :
  let alpha := exampleAlpha (RegressionNetParams 2) in
  let beta := exampleBeta (RegressionNetParams 2) in
  (RegisterAll [alpha; beta] newRegistry).2 = [alpha; beta]
  /\ hdPrivToPubKeyIDs (RegisterAll [alpha; beta] newRegistry).1
       !! HDPrivateKeyID alpha
     = Some (slice4 (HDPublicKeyID beta))
  /\ hdPrivToPubKeyIDs (RegisterAll [alpha; beta] newRegistry).1
       !! HDPrivateKeyID alpha
     ≠ Some (slice4 (HDPublicKeyID alpha)).
Proof.
  intros alpha beta.
  assert (RegisterAll [alpha; beta] newRegistry
          = (afterWrites 5 beta (afterWrites 5 alpha newRegistry), [alpha; beta]))
    as ->.
  { do 2 (rewrite RegisterAll_cons_fresh by compute_done). reflexivity. }
  split; [reflexivity|]. split; [compute_done|].
  intros Heq. vm_compute in Heq. discriminate Heq.
Qed.

Lemma registered_networks_indexed_witness :
  MainNetParams 1
    ∈ (RegisterAll [MainNetParams 1; TestNet3Params 3] newRegistry).2
  /\ IsPubKeyHashAddrID x4c
       (RegisterAll [MainNetParams 1; TestNet3Params 3] newRegistry).1 = true
  /\ hdPrivToPubKeyIDs
       (RegisterAll [MainNetParams 1; TestNet3Params 3] newRegistry).1
     !! (x04, x88, xad, xe4) = Some [x04; x88; xb2; x1e].
Proof.
  assert (MainNetParams 1
          ∈ (RegisterAll [MainNetParams 1; TestNet3Params 3] newRegistry).2)
    as Hin.
  { do 2 (rewrite RegisterAll_cons_fresh
            by compute_done).
    apply list_elem_of_here. }
  destruct (registered_networks_indexed
              [MainNetParams 1; TestNet3Params 3] newRegistry
              (MainNetParams 1) Hin) as (Hpk & _ & _ & _ & Hhd).
  split; [exact Hin|]. split; [exact Hpk|].
  apply Hhd. intros ps' Hin' Hkey.
  do 2 (rewrite RegisterAll_cons_fresh in Hin'
          by compute_done).
  simpl in Hin'.
  apply elem_of_cons in Hin' as [->|Hin']; [reflexivity|].
  apply list_elem_of_singleton in Hin' as ->. discriminate Hkey.
Defined.

(** C3, as claimed, fails: after the same two registrations
    [exampleAlpha] is a registered network and [id] is its 4-byte HD
    private key id, yet the lookup returns the public key id of
    [exampleBeta]. *)
Lemma HDPrivateKeyToPublicKeyID_returns_latest :
  let alpha := exampleAlpha (RegressionNetParams 2) in
  let beta := exampleBeta (RegressionNetParams 2) in
  let id := [x01; x02; x03; x04] in
  alpha ∈ (RegisterAll [alpha; beta] newRegistry).2
  /\ id = slice4 (HDPrivateKeyID alpha)
  /\ HDPrivateKeyToPublicKeyID id (RegisterAll [alpha; beta] newRegistry).1
     = ([x0b; x0b; x0b; x0b], None)
  /\ slice4 (HDPublicKeyID alpha) = [x0a; x0a; x0a; x0a].
Proof.
  intros alpha beta id.
  assert (RegisterAll [alpha; beta] newRegistry
          = (afterWrites 5 beta (afterWrites 5 alpha newRegistry), [alpha; beta]))
    as ->.
  { do 2 (rewrite RegisterAll_cons_fresh by compute_done). reflexivity. }
  split; [apply list_elem_of_here|]. split; [reflexivity|].
  split; [compute_done|reflexivity].
Qed.



(** C8, as claimed, fails: [Register (MainNetParams 1)] on the empty maps
    passes the duplicate check and assigns [registeredNets] first.  A
    reader that runs right after that assignment finds the magic
    registered and none of the four index entries of the network. *)
Lemma reader_between_assignments :
  let ps := MainNetParams 1 in
  let seen := afterWrites 1 ps newRegistry in
  (Net ps ∉ registeredNets newRegistry)
  /\ Net ps ∈ registeredNets seen
  /\ IsPubKeyHashAddrID (PubKeyHashAddrID ps) seen = false
  /\ IsScriptHashAddrID (ScriptHashAddrID ps) seen = false
  /\ IsBech32SegwitPrefix (fun s => s) (Bech32HRPSegwit ps +:+ "1") seen = false
  /\ HDPrivateKeyToPublicKeyID (slice4 (HDPrivateKeyID ps)) seen
     = ([], Some ErrUnknownHDKeyID).
Proof. intros ps seen. repeat split; compute_done. Qed.

Lemma Register_writes_one_by_one_witness :
  (Net (MainNetParams 1) ∉ registeredNets newRegistry)
  /\ Register (MainNetParams 1) newRegistry
     = Done None (afterWrites 5 (MainNetParams 1) newRegistry)
  /\ bech32SegwitPrefixes (afterWrites 4 (MainNetParams 1) newRegistry) = ∅.
Proof.
  assert (Net (MainNetParams 1) ∉ registeredNets newRegistry) as Hfresh
    by compute_done.
  destruct (Register_writes_one_by_one (MainNetParams 1) newRegistry Hfresh)
    as (_ & Hdone & _ & Hbetween).
  split; [exact Hfresh|]. split; [exact Hdone|].
  apply (Hbetween 4%nat). lia.
Defined.

Lemma Register_order_irrelevant_witness :
  NoDup (Net <$> [MainNetParams 1; TestNet3Params 3; RegressionNetParams 2])
  /\ (RegisterAll [MainNetParams 1; TestNet3Params 3; RegressionNetParams 2]
                  newRegistry).1
     = (RegisterAll [RegressionNetParams 2; MainNetParams 1; TestNet3Params 3]
                    newRegistry).1.
Proof.
  assert (NoDup (Net <$> [MainNetParams 1; TestNet3Params 3;
                          RegressionNetParams 2])) as Hnodup by compute_done.
  assert ([MainNetParams 1; TestNet3Params 3; RegressionNetParams 2]
          ≡ₚ [RegressionNetParams 2; MainNetParams 1; TestNet3Params 3])
    as Hperm.
  { symmetry.
    exact (Permutation_cons_append [MainNetParams 1; TestNet3Params 3]
                                   (RegressionNetParams 2)). }
  assert (forall q,
            q ∈ [MainNetParams 1; TestNet3Params 3; RegressionNetParams 2] ->
            Net q ∉ registeredNets newRegistry) as Hfresh
    by (intros q _; apply not_elem_of_empty).
  split; [exact Hnodup|].
  apply (Register_order_irrelevant _ _ newRegistry Hperm Hnodup Hfresh).
  intros p q Hp Hq.
  repeat match goal with
         | H : _ ∈ _ :: _ |- _ => apply elem_of_cons in H as [->|H]
         | H : _ ∈ [] |- _ => by apply not_elem_of_nil in H
         end;
    intros Heq; first [reflexivity | discriminate Heq].
Defined.

Lemma default_registry_address_ids_witness :
  (1 ≠ 3 /\ 1 ≠ 2 /\ 3 ≠ 2)
  /\ exists r, init 1 2 3 newRegistry = Done tt r
       /\ IsPubKeyHashAddrID x4c r = true
       /\ IsScriptHashAddrID x4c r ≠ true
       /\ Register (exampleAlpha (MainNetParams 2)) r
          = Done None (afterWrites 5 (exampleAlpha (MainNetParams 2)) r)
       /\ Register (MainNetParams 2) r = Done (Some ErrDuplicateNet) r.
Proof.
  assert (1 ≠ 3) as H13 by lia.
  assert (1 ≠ 2) as H12 by lia.
  assert (3 ≠ 2) as H32 by lia.
  split; [done|].
  destruct (default_registry_address_ids 1 2 3 H13 H12 H32)
    as (r & Hinit & Hpk & Hsh & Hboth & Hdup).
  exists r. split; [exact Hinit|]. split; [apply Hpk; by left|].
  split; [intros Hs; apply Hsh in Hs as [?|?]; discriminate|].
  split; [|apply Hdup; right; by left].
  apply Register_fresh.
  rewrite init_unfold in Hinit.
  rewrite !mustRegister_fresh in Hinit by compute_done.
  injection Hinit as <-. compute_done.
Defined.

Lemma default_registry_HD_keys_and_prefixes_witness :
  (1 ≠ 3 /\ 1 ≠ 2 /\ 3 ≠ 2)
  /\ exists r, init 1 2 3 newRegistry = Done tt r
       /\ HDPrivateKeyToPublicKeyID [x04; x35; x83; x94] r
          = ([x04; x35; x87; xcf], None)
       /\ HDPrivateKeyToPublicKeyID [x04; x35; x83] r
          = ([], Some ErrUnknownHDKeyID)
       /\ IsBech32SegwitPrefix (fun s => s) "TB1" r = true.
Proof.
  assert (1 ≠ 3) as H13 by lia.
  assert (1 ≠ 2) as H12 by lia.
  assert (3 ≠ 2) as H32 by lia.
  split; [done|].
  destruct (default_registry_HD_keys_and_prefixes (fun s => s) 1 2 3 H13 H12 H32)
    as (r & Hinit & Hhd & Hbech).
  exists r. split; [exact Hinit|].
  split; [by rewrite Hhd|]. split; [by rewrite Hhd|].
  apply Hbech; [reflexivity|]. by right.
Defined.

Lemma IsBech32SegwitPrefix_case_insensitive_witness :
  isASCII "BC1" = true
  /\ equalUpToASCIICase "BC1" "bc1"
  /\ IsBech32SegwitPrefix (fun s => s) "BC1"
       (RegisterAll [MainNetParams 1] newRegistry).1
     = IsBech32SegwitPrefix (fun s => s) "bc1"
         (RegisterAll [MainNetParams 1] newRegistry).1.
Proof.
  assert (isASCII "BC1" = true) as Hascii by reflexivity.
  assert (equalUpToASCIICase "BC1" "bc1") as Hfold by reflexivity.
  split; [exact Hascii|]. split; [exact Hfold|].
  exact (IsBech32SegwitPrefix_case_insensitive (fun s => s) "BC1" "bc1" _
           Hascii Hfold).
Defined.

Lemma shared_address_ids_do_not_block_witness :
  (3 ≠ 2)
  /\ (RegisterAll [TestNet3Params 3; RegressionNetParams 2] newRegistry).2
     = [TestNet3Params 3; RegressionNetParams 2]
  /\ IsPubKeyHashAddrID x8c
       (RegisterAll [TestNet3Params 3; RegressionNetParams 2] newRegistry).1
     = true
  /\ IsScriptHashAddrID x13
       (RegisterAll [TestNet3Params 3; RegressionNetParams 2] newRegistry).1
     = true.
Proof.
  assert (3 ≠ 2) as H32 by lia.
  assert (3 ∉ registeredNets newRegistry) as H3 by apply not_elem_of_empty.
  assert (2 ∉ registeredNets newRegistry) as H2 by apply not_elem_of_empty.
  destruct (shared_address_ids_do_not_block 2 3 newRegistry H32 H3 H2)
    as (_ & Hboth & _ & (Hpk & Hsh) & _).
  split; [exact H32|]. split; [exact Hboth|]. split; [exact Hpk|exact Hsh].
Defined.
